(** * rbin: a shallow embedding of [src/main.rs]

    The model follows the two request handlers of the service:
    [handle_paste_submission] (POST /) and [retrieve_paste] (GET /:id).
    Rust [String]s are modelled as their UTF-8 byte vectors ([list Z],
    every byte in 0..255), the way [String] is a [Vec<u8>] holding valid
    UTF-8; [str::chars] decodes them. The filesystem, the random number
    generator and the multipart request body are threaded through an explicit
    state. *)

From Stdlib Require Import ZArith Lia.
From stdpp Require Import base gmap sets list strings.

Open Scope Z_scope.

(** ** Bytes, strings and UTF-8 *)

Definition bytes := list Z.

(** ASCII text as a byte string (for literals of the source). *)
Fixpoint lit (s : String.string) : bytes :=
  match s with
  | String.EmptyString => []
  | String.String a s' => Z.of_nat (Ascii.nat_of_ascii a) :: lit s'
  end.
Arguments lit s%_stdpp_scope : simpl never.

(** [core::str::validations]: a continuation byte is 0b10xx_xxxx. *)
Definition is_cont (b : Z) : bool := (0x80 <=? b) && (b <=? 0xBF).

Definition CONT_MASK : Z := 0x3F.

(** [utf8_first_byte(x, width) = x & (0x7F >> width)] *)
Definition utf8_first_byte (x : Z) (width : Z) : Z := Z.land x (Z.shiftr 0x7F width).

(** [utf8_acc_cont_byte(ch, byte) = (ch << 6) | (byte & CONT_MASK)] *)
Definition utf8_acc_cont_byte (ch b : Z) : Z := Z.lor (Z.shiftl ch 6) (Z.land b CONT_MASK).

(** [str::from_utf8] followed by [str::chars]: the validation of
    [run_utf8_validation] (well-formed sequences only: no overlong forms,
    no surrogates, nothing above U+10FFFF) and the decoding of
    [next_code_point], done in one pass. [None] is a [Utf8Error]. *)
Fixpoint utf8_chars (bs : bytes) : option (list Z) :=
  match bs with
  | [] => Some []
  | x :: r0 =>
    if x <? 0x80 then cons x <$> utf8_chars r0
    else if (0xC2 <=? x) && (x <=? 0xDF) then
      match r0 with
      | y :: r1 =>
        if is_cont y then cons (utf8_acc_cont_byte (utf8_first_byte x 2) y) <$> utf8_chars r1
        else None
      | _ => None
      end
    else if (0xE0 <=? x) && (x <=? 0xEF) then
      match r0 with
      | y :: z :: r2 =>
        let y_ok :=
          if x =? 0xE0 then (0xA0 <=? y) && (y <=? 0xBF)
          else if x =? 0xED then (0x80 <=? y) && (y <=? 0x9F)
          else is_cont y in
        if y_ok && is_cont z then
          let init := utf8_first_byte x 3 in
          let y_z := utf8_acc_cont_byte (Z.land y CONT_MASK) z in
          cons (Z.lor (Z.shiftl init 12) y_z) <$> utf8_chars r2
        else None
      | _ => None
      end
    else if (0xF0 <=? x) && (x <=? 0xF4) then
      match r0 with
      | y :: z :: w :: r3 =>
        let y_ok :=
          if x =? 0xF0 then (0x90 <=? y) && (y <=? 0xBF)
          else if x =? 0xF4 then (0x80 <=? y) && (y <=? 0x8F)
          else is_cont y in
        if y_ok && is_cont z && is_cont w then
          let init := utf8_first_byte x 4 in
          let y_z := utf8_acc_cont_byte (Z.land y CONT_MASK) z in
          cons (Z.lor (Z.shiftl (Z.land init 7) 18) (utf8_acc_cont_byte y_z w)) <$> utf8_chars r3
        else None
      | _ => None
      end
    else None
  end.

(** A byte vector is a Rust [String] when it is valid UTF-8. *)
Definition is_string (bs : bytes) : Prop := Forall (fun b => 0 <= b < 256) bs /\ is_Some (utf8_chars bs).

(** [str::chars] on a [String] (whose bytes are valid UTF-8 by the type's
    invariant, so the [None] branch is never taken on a real [String]). *)
Definition str_chars (s : bytes) : list Z :=
  match utf8_chars s with Some cs => cs | None => [] end.

(** ** Character classes of [core::char]

    [char::is_alphabetic] and [char::is_numeric] test ASCII ranges
    directly and otherwise look the code point up in the Unicode tables
    [unicode::Alphabetic] and [unicode::N] of the standard library. The
    tables are a parameter of the model. *)
Class UnicodeTables := {
  unicode_Alphabetic : Z -> bool;
  unicode_N : Z -> bool
}.

Section CharClasses.
Context `{UnicodeTables}.

Definition char_is_alphabetic (c : Z) : bool :=
  ((0x61 <=? c) && (c <=? 0x7A)) || ((0x41 <=? c) && (c <=? 0x5A))
  || ((0x7F <? c) && unicode_Alphabetic c).

Definition char_is_numeric (c : Z) : bool :=
  ((0x30 <=? c) && (c <=? 0x39)) || ((0x7F <? c) && unicode_N c).

(** [char::is_alphanumeric = is_alphabetic || is_numeric] *)
Definition char_is_alphanumeric (c : Z) : bool :=
  char_is_alphabetic c || char_is_numeric c.

End CharClasses.

(** [char::is_ascii_alphanumeric]: the class [A-Za-z0-9]. *)
Definition is_ascii_alphanumeric (c : Z) : bool :=
  ((0x61 <=? c) && (c <=? 0x7A)) || ((0x41 <=? c) && (c <=? 0x5A))
  || ((0x30 <=? c) && (c <=? 0x39)).

(** ** Configuration constants *)

Definition ID_LENGTH : nat := 6.
Definition MAX_BODY_SIZE : Z := 1024 * 1024 * 10.

(** ** [rand::distributions::Alphanumeric]

    [Distribution<u8> for Alphanumeric] (rand 0.8): rejection sampling on
    the top 6 bits of [next_u32]; [DistString::sample_string] collects
    [len] samples. The random source is the sequence of [u32] values the
    thread RNG hands out; a run that needs more of them than are given
    yields [None]. *)
Definition GEN_ASCII_STR_CHARSET : bytes :=
  lit "ABCDEFGHIJKLMNOPQRSTUVWXYZabcdefghijklmnopqrstuvwxyz0123456789".

Definition RANGE : Z := 26 + 26 + 10.

Fixpoint alphanumeric_sample (rng : list Z) : option (Z * list Z) :=
  match rng with
  | [] => None
  | u :: rest =>
    let var := Z.shiftr u (32 - 6) in
    if var <? RANGE then Some (nth (Z.to_nat var) GEN_ASCII_STR_CHARSET 0, rest)
    else alphanumeric_sample rest
  end.

Fixpoint sample_string (len : nat) (rng : list Z) : option (bytes * list Z) :=
  match len with
  | O => Some ([], rng)
  | S n =>
    match alphanumeric_sample rng with
    | None => None
    | Some (c, rng') =>
      match sample_string n rng' with
      | None => None
      | Some (s, rng'') => Some (c :: s, rng'')
      end
    end
  end.

(** ** Results, errors and responses *)

Inductive result (A E : Type) : Type :=
| Ok (a : A)
| Err (e : E).
Arguments Ok {A E} a.
Arguments Err {A E} e.

(** [std::io::ErrorKind] values the handlers can meet. *)
Inductive io_error_kind :=
| NotFound
| PermissionDenied
| InvalidData
| StorageFull.

Definition io_error_kind_eq_dec (k1 k2 : io_error_kind) : {k1 = k2} + {k1 <> k2}.
Proof. decide equality. Defined.

(** The [Display] text of the [io::Error] of each kind. *)
Definition io_error_display (k : io_error_kind) : bytes :=
  match k with
  | NotFound => lit "No such file or directory (os error 2)"
  | PermissionDenied => lit "Permission denied (os error 13)"
  | InvalidData => lit "stream did not contain valid UTF-8"
  | StorageFull => lit "No space left on device (os error 28)"
  end.

(** An HTTP response: its status code and its body. *)
Record response := mkresponse {
  status : Z;
  resp_body : bytes
}.

(** ** The multipart request body

    A field has an optional name and the outcome of [Field::text] on it
    (the decoded text, or the error text of a failed read). A body item is
    either a field or an error of [Multipart::next_field]. *)
Record field := mkfield {
  fld_name : option bytes;
  fld_text : result bytes bytes
}.

Inductive mp_item :=
| MpField (f : field)
| MpError (msg : bytes).

(** ** The program state

    - [st_files]: the files on disk, by path;
    - [st_faulty]: the paths where the operating system fails, and how
      (see [io_fault]);
    - [st_rng]: the [u32] values the thread RNG will hand out;
    - [st_body]: the rest of the multipart request body;
    - [st_log]: the paths built and the filesystem calls made, latest first. *)
Inductive event :=
| EvPathBuilt (p : bytes)
| EvRead (p : bytes)
| EvWrite (p : bytes).

(** How the operating system fails on a path. [std::fs::write] opens the
    file (creating or truncating it) and then writes all the bytes; the
    open can fail and leave everything as it was, or the writing can stop
    part-way and leave the first bytes in the file. *)
Inductive io_fault :=
| Denied                                   (* every open is refused: [PermissionDenied] *)
| NoDir                                    (* the directory is missing: creating fails with [NotFound] *)
| ShortWrite (n : nat) (k : io_error_kind). (* the open succeeds; [write_all] stops after [n] bytes with [k] *)

Record st := mkst {
  st_files : gmap bytes bytes;
  st_faulty : gmap bytes io_fault;
  st_rng : list Z;
  st_body : list mp_item;
  st_log : list event
}.

(** ** A state monad with a failure for an exhausted random source *)

Definition M (A : Type) : Type := st -> option (A * st).

Definition ret {A} (a : A) : M A := fun s => Some (a, s).
Definition bind {A B} (m : M A) (k : A -> M B) : M B :=
  fun s => match m s with Some (a, s') => k a s' | None => None end.

Notation "x <-- m ;; k" := (bind m (fun x => k))
  (at level 100, m at next level, right associativity).

Definition with_log (s : st) (e : event) : st :=
  mkst (st_files s) (st_faulty s) (st_rng s) (st_body s) (e :: st_log s).

Definition log_event (e : event) : M unit := fun s => Some (tt, with_log s e).

(** [PathBuf::join] on Unix: an absolute argument replaces the base;
    otherwise a ['/'] is inserted unless the base is empty or already ends
    in one. *)
Definition path_join_pure (dir p : bytes) : bytes :=
  if bool_decide (head p = Some 47) then p
  else
    match last dir with
    | None => p
    | Some c => if c =? 47 then dir ++ p else dir ++ [47] ++ p
    end.

Definition path_join (dir p : bytes) : M bytes :=
  let q := path_join_pure dir p in
  _ <-- log_event (EvPathBuilt q) ;; ret q.

(** [tokio::fs::write] ([std::fs::write] on a blocking thread): open with
    create and truncate, then [write_all]. A failed open changes nothing;
    a failed [write_all] leaves the bytes written so far. *)
Definition fs_write (p contents : bytes) : M (result unit io_error_kind) :=
  _ <-- log_event (EvWrite p) ;;
  fun s =>
    match st_faulty s !! p with
    | Some Denied => Some (Err PermissionDenied, s)
    | Some NoDir => Some (Err NotFound, s)
    | Some (ShortWrite n k) =>
      Some (Err k, mkst (<[p := take n contents]> (st_files s)) (st_faulty s)
                        (st_rng s) (st_body s) (st_log s))
    | None =>
      Some (Ok tt, mkst (<[p := contents]> (st_files s)) (st_faulty s)
                        (st_rng s) (st_body s) (st_log s))
    end.

(** [tokio::fs::read_to_string]: [NotFound] when no file is there, the
    refusal of a denied path, [InvalidData] when the bytes are not UTF-8. *)
Definition fs_read_to_string (p : bytes) : M (result bytes io_error_kind) :=
  _ <-- log_event (EvRead p) ;;
  fun s =>
    match st_files s !! p with
    | None => Some (Err NotFound, s)
    | Some b =>
      match st_faulty s !! p with
      | Some Denied => Some (Err PermissionDenied, s)
      | _ =>
        match utf8_chars b with
        | Some _ => Some (Ok b, s)
        | None => Some (Err InvalidData, s)
        end
      end
    end.

(** [Alphanumeric.sample_string(&mut rand::thread_rng(), ID_LENGTH)] *)
Definition generate_id : M bytes :=
  fun s =>
    match sample_string ID_LENGTH (st_rng s) with
    | None => None
    | Some (id, rng') => Some (id, mkst (st_files s) (st_faulty s) rng' (st_body s) (st_log s))
    end.

(** ** Request headers

    A [HeaderMap] as its entries in order, names in lower case (the form
    [HeaderName] keeps; [HeaderMap::get] lower-cases the name it is given
    and returns the first value under it). *)
Definition header_map := list (bytes * bytes).

Fixpoint header_get (name : bytes) (hs : header_map) : option bytes :=
  match hs with
  | [] => None
  | (n, v) :: rest => if bool_decide (n = name) then Some v else header_get name rest
  end.

(** [HeaderValue::to_str] succeeds when every byte is visible ASCII or a tab. *)
Definition is_visible_ascii (b : Z) : bool := ((32 <=? b) && (b <? 127)) || (b =? 9).

Definition header_to_str (v : bytes) : option bytes :=
  if forallb is_visible_ascii v then Some v else None.

Definition unwrap_or {A} (o : option A) (d : A) : A :=
  match o with Some a => a | None => d end.

Definition request_host (headers : header_map) : bytes :=
  unwrap_or (header_get (lit "host") headers ≫= header_to_str) (lit "localhost").

Definition request_scheme (headers : header_map) : bytes :=
  unwrap_or (header_get (lit "x-forwarded-proto") headers ≫= header_to_str) (lit "http").

(** ** POST /: [handle_paste_submission] *)

Definition bad_request (msg : bytes) : response := mkresponse 400 msg.

(** The [while let Some(field) = multipart.next_field().await?] loop: the
    first field named ["rbin"] gives the content and ends the loop; every
    other field is drained ([field.bytes()], result ignored) and skipped.
    Returns the outcome ([Err] carries the early 400 response) and the rest
    of the body. *)
Fixpoint read_fields (body : list mp_item) : result (option bytes) response * list mp_item :=
  match body with
  | [] => (Ok None, [])
  | MpError e :: rest =>
    (Err (bad_request (lit "Error processing form data: " ++ e)), rest)
  | MpField f :: rest =>
    let name := unwrap_or (fld_name f) [] in
    if bool_decide (name = lit "rbin") then
      match fld_text f with
      | Ok data => (Ok (Some data), rest)
      | Err e => (Err (bad_request (lit "Failed to read field data: " ++ e)), rest)
      end
    else read_fields rest
  end.

Definition next_paste_content : M (result (option bytes) response) :=
  fun s =>
    let '(r, rest) := read_fields (st_body s) in
    Some (r, mkst (st_files s) (st_faulty s) (st_rng s) rest (st_log s)).

Definition handle_paste_submission (paste_dir : bytes) (headers : header_map) : M response :=
  pc <-- next_paste_content ;;
  match pc with
  | Err r => ret r
  | Ok None => ret (bad_request (lit "Missing 'rbin' form field"))
  | Ok (Some content) =>
    if bool_decide (content = []) then ret (bad_request (lit "Paste content cannot be empty"))
    else
      id <-- generate_id ;;
      file_path <-- path_join paste_dir (id ++ lit ".txt") ;;
      w <-- fs_write file_path content ;;
      match w with
      | Err e => ret (mkresponse 500 (lit "Failed to save paste: " ++ io_error_display e))
      | Ok _ =>
        let base_url := request_scheme headers ++ lit "://" ++ request_host headers in
        let result_url := base_url ++ lit "/" ++ id in
        ret (mkresponse 200 result_url)
      end
  end.

(** ** GET /:id: [retrieve_paste] *)

Section Retrieve.
Context `{UnicodeTables}.

(** The guard [id.len() != ID_LENGTH || !id.chars().all(char::is_alphanumeric)]:
    [true] when the id is rejected. [len] is the length in bytes. *)
Definition id_rejected (id : bytes) : bool :=
  negb (Nat.eqb (length id) ID_LENGTH) || negb (forallb char_is_alphanumeric (str_chars id)).

Definition retrieve_paste (paste_dir id : bytes) : M response :=
  if id_rejected id then ret (bad_request (lit "Invalid paste ID format."))
  else
    file_path <-- path_join paste_dir (id ++ lit ".txt") ;;
    r <-- fs_read_to_string file_path ;;
    match r with
    | Ok content => ret (mkresponse 200 content)
    | Err e =>
      if io_error_kind_eq_dec e NotFound
      then ret (mkresponse 404 (lit "Paste '" ++ id ++ lit "' not found."))
      else ret (mkresponse 500 (lit "Error retrieving paste."))
    end.

End Retrieve.

(** ** The storage steps of the handlers

    Lines 245-254 of [handle_paste_submission] (build [<dir>/<id>.txt],
    write the content) and lines 279-282 of [retrieve_paste] (build the
    same path, read it back), as they appear in the two handlers above. *)
Definition paste_file (paste_dir id : bytes) : bytes := path_join_pure paste_dir (id ++ lit ".txt").

Definition paste_store_write (paste_dir id content : bytes) : M (result unit io_error_kind) :=
  file_path <-- path_join paste_dir (id ++ lit ".txt") ;;
  fs_write file_path content.

Definition paste_store_read (paste_dir id : bytes) : M (result bytes io_error_kind) :=
  file_path <-- path_join paste_dir (id ++ lit ".txt") ;;
  fs_read_to_string file_path.

(** ** The service: requests served one after another

    Axum hands each POST its own multipart body; GET requests carry the
    [:id] path segment. The paste directory is fixed at start-up. *)
Inductive request :=
| ReqPost (headers : header_map) (body : list mp_item)
| ReqGet (id : bytes).

Definition set_body (body : list mp_item) : M unit :=
  fun s => Some (tt, mkst (st_files s) (st_faulty s) (st_rng s) body (st_log s)).

Section Serve.
Context `{UnicodeTables}.

Definition serve (paste_dir : bytes) (req : request) : M response :=
  match req with
  | ReqPost headers body => _ <-- set_body body ;; handle_paste_submission paste_dir headers
  | ReqGet id => retrieve_paste paste_dir id
  end.

Fixpoint serve_all (paste_dir : bytes) (reqs : list request) : M (list response) :=
  match reqs with
  | [] => ret []
  | req :: rest =>
    r <-- serve paste_dir req ;;
    rs <-- serve_all paste_dir rest ;;
    ret (r :: rs)
  end.

End Serve.

(** ** The port number of [main]

    [main] reads [RBIN_PORT] (default [DEFAULT_PORT.to_string()]) and
    parses it as a [u16] (lines 81 and 94-102). *)
Definition DEFAULT_PORT : Z := 3000.

(** [<u16 as FromStr>::from_str] ([from_str_radix] with radix 10): an empty
    string and a lone sign are errors; one leading ['+'] is skipped (['-']
    is an invalid digit for an unsigned type); then every byte must be a
    decimal digit and the value must stay below 2^16. All error kinds are
    [None]: [main] only logs them. *)
Definition dec_digit (c : Z) : option Z :=
  if (48 <=? c) && (c <=? 57) then Some (c - 48) else None.

Fixpoint u16_accumulate (acc : Z) (digits : bytes) : option Z :=
  match digits with
  | [] => Some acc
  | c :: rest =>
    match dec_digit c with
    | None => None
    | Some d =>
      let v := acc * 10 + d in
      if v <? 65536 then u16_accumulate v rest else None
    end
  end.

Definition u16_from_str (src : bytes) : option Z :=
  match src with
  | [] => None
  | c :: rest =>
    if ((c =? 43) || (c =? 45)) && bool_decide (rest = []) then None
    else if c =? 43 then u16_accumulate 0 rest
    else u16_accumulate 0 src
  end.

(** [<u16 as Display>::fmt]: the decimal digits, most significant first
    (a [u16] has at most 5 digits, so 4 divisions suffice). *)
Fixpoint dec_digits (fuel : nat) (n : Z) (acc : bytes) : bytes :=
  match fuel with
  | O => (48 + n) :: acc
  | S f => if n <? 10 then (48 + n) :: acc else dec_digits f (n / 10) ((48 + n mod 10) :: acc)
  end.

Definition u16_to_string (n : Z) : bytes := dec_digits 4 n [].

(** ** Unicode tables on the Latin-1 block

    [unicode::Alphabetic] and [unicode::N] of the Unicode Character
    Database on U+0080..U+00FF: Alphabetic are U+00AA, U+00B5, U+00BA and
    the letters U+00C0..U+00D6, U+00D8..U+00F6, U+00F8..U+00FF; numeric
    are U+00B2, U+00B3, U+00B9 and U+00BC..U+00BE. Above U+00FF these
    tables answer [false]; they are only evaluated on Latin-1 input. *)
Definition latin1_Alphabetic (c : Z) : bool :=
  (c =? 0xAA) || (c =? 0xB5) || (c =? 0xBA)
  || ((0xC0 <=? c) && (c <=? 0xD6)) || ((0xD8 <=? c) && (c <=? 0xF6))
  || ((0xF8 <=? c) && (c <=? 0xFF)).

Definition latin1_N (c : Z) : bool :=
  (c =? 0xB2) || (c =? 0xB3) || (c =? 0xB9) || ((0xBC <=? c) && (c <=? 0xBE)).

#[local] Instance latin1_tables : UnicodeTables := {|
  unicode_Alphabetic := latin1_Alphabetic;
  unicode_N := latin1_N
|}.

(** A fresh service state: an empty paste directory, no faulty paths. *)
Definition init_st (rng : list Z) : st := mkst ∅ ∅ rng [] [].

Definition rbin_field (text : bytes) : field := mkfield (Some (lit "rbin")) (Ok text).

Definition not_rbin (f : field) : Prop := unwrap_or (fld_name f) [] <> lit "rbin".

(** ** Helpers of the statements *)

(** What [read_to_string] answers on a path. *)
Definition read_outcome (s : st) (p : bytes) : result bytes io_error_kind :=
  match st_files s !! p with
  | None => Err NotFound
  | Some b =>
    match st_faulty s !! p with
    | Some Denied => Err PermissionDenied
    | _ => match utf8_chars b with Some _ => Ok b | None => Err InvalidData end
    end
  end.

(** What [fs::write] does to the state. *)
Definition write_outcome (s : st) (p : bytes) : result unit io_error_kind :=
  match st_faulty s !! p with
  | Some Denied => Err PermissionDenied
  | Some NoDir => Err NotFound
  | Some (ShortWrite _ k) => Err k
  | None => Ok tt
  end.

Definition write_files (s : st) (p contents : bytes) : gmap bytes bytes :=
  match st_faulty s !! p with
  | Some Denied | Some NoDir => st_files s
  | Some (ShortWrite n _) => <[p := take n contents]> (st_files s)
  | None => <[p := contents]> (st_files s)
  end.

(** The candidate "aaaaé": four ASCII letters and U+00E9, 5 characters in
    6 bytes. *)
Definition aaaa_e_acute : bytes := [0x61; 0x61; 0x61; 0x61; 0xC3; 0xA9].

Definition set_st_body (s : st) (body : list mp_item) : st :=
  mkst (st_files s) (st_faulty s) (st_rng s) body (st_log s).

(** The URL a successful submission answers with. *)
Definition paste_url (headers : header_map) (id : bytes) : bytes :=
  (request_scheme headers ++ lit "://" ++ request_host headers) ++ lit "/" ++ id.

(** * Sanity checks *)

Example u16_from_str_cases :
  map u16_from_str [lit "8080"; lit "+80"; lit "0080"; lit ""; lit "+"; lit "-1"; lit "65535"; lit "65536"; lit "80a"]
  = [Some 8080; Some 80; Some 80; None; None; None; Some 65535; None; None].
Proof. vm_compute. reflexivity. Qed.

Example u16_to_string_cases :
  map u16_to_string [0; 7; DEFAULT_PORT; 65535] = [lit "0"; lit "7"; lit "3000"; lit "65535"].
Proof. vm_compute. reflexivity. Qed.

Example utf8_chars_e_acute : utf8_chars [0xC3; 0xA9] = Some [0xE9].
Proof. reflexivity. Qed.
Example utf8_chars_euro : utf8_chars [0xE2; 0x82; 0xAC] = Some [0x20AC].
Proof. reflexivity. Qed.
Example utf8_chars_emoji : utf8_chars [0xF0; 0x9F; 0x98; 0x80] = Some [0x1F600].
Proof. reflexivity. Qed.
Example utf8_chars_overlong : utf8_chars [0xC0; 0x80] = None.
Proof. reflexivity. Qed.

Example sample_string_zeros : sample_string ID_LENGTH [0;0;0;0;0;0] = Some (lit "AAAAAA", []).
Proof. reflexivity. Qed.

Example sample_string_rejects : sample_string 1 [0xFFFFFFFF; 0x04000000] = Some (lit "B", []).
Proof. reflexivity. Qed.

Example post_then_get :
  let s0 := init_st [0;0;0;0;0;0] in
  match serve_all (lit "pastes")
          [ReqPost [(lit "host", lit "example.org")] [MpField (rbin_field (lit "hello world"))];
           ReqGet (lit "AAAAAA"); ReqGet (lit "AAAAAAX"); ReqGet (lit "000000")] s0 with
  | Some (rs, _) => map status rs = [200; 200; 400; 404]
                    /\ map resp_body rs !! 0%nat = Some (lit "http://example.org/AAAAAA")
                    /\ map resp_body rs !! 1%nat = Some (lit "hello world")
  | None => False
  end.
Proof. vm_compute. auto. Qed.

(** * Properties *)

(** ** The identifier generator *)

Lemma charset_ascii_alphanumeric :
  Forall (fun c => is_ascii_alphanumeric c = true) GEN_ASCII_STR_CHARSET.
Proof.
  apply Forall_forall. intros c Hc. apply list_elem_of_In in Hc.
  refine (proj1 (forallb_forall is_ascii_alphanumeric GEN_ASCII_STR_CHARSET) _ c Hc).
  vm_compute. reflexivity.
Qed.

Lemma charset_length : length GEN_ASCII_STR_CHARSET = 62%nat.
Proof. reflexivity. Qed.

Lemma alphanumeric_sample_in rng c rng' :
  alphanumeric_sample rng = Some (c, rng') -> c ∈ GEN_ASCII_STR_CHARSET.
Proof.
  induction rng as [|u rest IH]; cbn [alphanumeric_sample]; [discriminate|].
  destruct (Z.shiftr u (32 - 6) <? RANGE) eqn:Hv; [|exact IH].
  assert (Hin : nth (Z.to_nat (Z.shiftr u (32 - 6))) GEN_ASCII_STR_CHARSET 0 ∈ GEN_ASCII_STR_CHARSET).
  { apply list_elem_of_In, nth_In. rewrite charset_length. unfold RANGE in Hv. apply Z.ltb_lt in Hv. lia. }
  revert Hin. generalize (nth (Z.to_nat (Z.shiftr u (32 - 6))) GEN_ASCII_STR_CHARSET 0).
  intros d Hd Heq. injection Heq as -> _. exact Hd.
Qed.

Lemma sample_string_spec n rng s rng' :
  sample_string n rng = Some (s, rng') ->
  length s = n /\ Forall (fun c => is_ascii_alphanumeric c = true) s.
Proof.
  revert rng s rng'. induction n as [|n IH]; intros rng s rng'; simpl.
  - intros [= <- _]. auto.
  - destruct (alphanumeric_sample rng) as [[c r1]|] eqn:Hc; [|discriminate].
    destruct (sample_string n r1) as [[t r2]|] eqn:Ht; [|discriminate].
    intros [= <- _]. destruct (IH _ _ _ Ht) as [Hl Ha]. split; [simpl; lia|].
    constructor; [|exact Ha].
    apply alphanumeric_sample_in in Hc. pose proof charset_ascii_alphanumeric as Hall.
    rewrite Forall_forall in Hall. by apply Hall.
Qed.

Lemma ascii_alphanumeric_range c : is_ascii_alphanumeric c = true -> 0 <= c < 0x80.
Proof. unfold is_ascii_alphanumeric. intros H. repeat (apply orb_true_iff in H as [H|H]); apply andb_true_iff in H as [H1 H2]; lia. Qed.

Lemma utf8_chars_ascii s : Forall (fun c => 0 <= c < 0x80) s -> utf8_chars s = Some s.
Proof.
  induction 1 as [|c s Hc _ IH]; [reflexivity|]. simpl.
  replace (c <? 0x80) with true by lia. by rewrite IH.
Qed.

Lemma str_chars_ascii s : Forall (fun c => 0 <= c < 0x80) s -> str_chars s = s.
Proof. intros H. unfold str_chars. by rewrite utf8_chars_ascii. Qed.

Lemma ascii_alphanumeric_char_is_alphanumeric `{UnicodeTables} c :
  0 <= c < 0x80 -> char_is_alphanumeric c = is_ascii_alphanumeric c.
Proof.
  intros Hc. unfold char_is_alphanumeric, char_is_alphabetic, char_is_numeric, is_ascii_alphanumeric.
  replace (0x7F <? c) with false by lia. simpl.
  destruct ((0x61 <=? c) && (c <=? 0x7A)), ((0x41 <=? c) && (c <=? 0x5A)), ((0x30 <=? c) && (c <=? 0x39)); reflexivity.
Qed.

Lemma generate_id_spec s id s' :
  generate_id s = Some (id, s') ->
  length id = ID_LENGTH /\ Forall (fun c => is_ascii_alphanumeric c = true) id
  /\ st_files s' = st_files s /\ st_faulty s' = st_faulty s /\ st_body s' = st_body s
  /\ st_log s' = st_log s.
Proof.
  unfold generate_id. destruct (sample_string ID_LENGTH (st_rng s)) as [[t r]|] eqn:Hs; [|discriminate].
  intros [= <- <-]. apply sample_string_spec in Hs. simpl. tauto.
Qed.

(** C3. Every identifier the generator produces has [ID_LENGTH] (6)
    characters, each from [A-Za-z0-9]; as they are ASCII its characters are
    its bytes, so its byte length is 6 too. *)
Theorem generated_id_shape s id s' :
  generate_id s = Some (id, s') ->
  length (str_chars id) = ID_LENGTH /\ length id = ID_LENGTH
  /\ Forall (fun c => is_ascii_alphanumeric c = true) (str_chars id).
Proof.
  intros Hg. destruct (generate_id_spec _ _ _ Hg) as (Hl & Ha & _).
  rewrite str_chars_ascii.
  - auto.
  - eapply Forall_impl; [exact Ha|]. apply ascii_alphanumeric_range.
Qed.

Lemma generated_id_shape_witness :
  generate_id (init_st [0; 0x7C000000; 0xFFFFFFFF; 1; 0x10000000; 0xF0000000; 0x20000000])
    = Some (lit "AfAE8I", mkst ∅ ∅ [] [] [])
  /\ length (str_chars (lit "AfAE8I")) = ID_LENGTH /\ length (lit "AfAE8I") = ID_LENGTH
  /\ Forall (fun c => is_ascii_alphanumeric c = true) (str_chars (lit "AfAE8I")).
Proof.
  split; [vm_compute; reflexivity|].
  apply (generated_id_shape (init_st [0; 0x7C000000; 0xFFFFFFFF; 1; 0x10000000; 0xF0000000; 0x20000000])
           (lit "AfAE8I") (mkst ∅ ∅ [] [] [])).
  vm_compute. reflexivity.
Defined.

(** ** Running the monadic steps *)

Lemma bind_Some {A B} (m : M A) (k : A -> M B) s a s' :
  m s = Some (a, s') -> bind m k s = k a s'.
Proof. intros Hm. unfold bind. by rewrite Hm. Qed.

Lemma bind_None {A B} (m : M A) (k : A -> M B) s :
  m s = None -> bind m k s = None.
Proof. intros Hm. unfold bind. by rewrite Hm. Qed.

Lemma ret_run {A} (a : A) s : ret a s = Some (a, s).
Proof. reflexivity. Qed.

Lemma path_join_run dir p s :
  path_join dir p s = Some (path_join_pure dir p, with_log s (EvPathBuilt (path_join_pure dir p))).
Proof. reflexivity. Qed.

Lemma fs_read_to_string_run p s :
  fs_read_to_string p s = Some (read_outcome s p, with_log s (EvRead p)).
Proof.
  unfold fs_read_to_string, read_outcome, bind, log_event. simpl.
  repeat case_match; congruence.
Qed.

Lemma fs_write_run p contents s :
  fs_write p contents s =
  Some (write_outcome s p,
        mkst (write_files s p contents) (st_faulty s) (st_rng s) (st_body s) (EvWrite p :: st_log s)).
Proof.
  unfold fs_write, write_outcome, write_files, bind, log_event. simpl.
  by repeat case_match.
Qed.

Lemma write_outcome_Ok s p contents :
  write_outcome s p = Ok tt ->
  st_faulty s !! p = None /\ write_files s p contents = <[p := contents]> (st_files s).
Proof. unfold write_outcome, write_files. by repeat case_match. Qed.

(** A failed write touches at most its own file, leaving there a prefix
    of the content. *)
Lemma write_outcome_Err s p contents e :
  write_outcome s p = Err e ->
  write_files s p contents = st_files s
  \/ exists n, write_files s p contents = <[p := take n contents]> (st_files s).
Proof. unfold write_outcome, write_files. repeat case_match; try discriminate; eauto. Qed.

Lemma retrieve_paste_run `{UnicodeTables} paste_dir id s :
  id_rejected id = false ->
  let p := paste_file paste_dir id in
  retrieve_paste paste_dir id s =
  Some (match read_outcome s p with
        | Ok content => mkresponse 200 content
        | Err e =>
          if io_error_kind_eq_dec e NotFound
          then mkresponse 404 (lit "Paste '" ++ id ++ lit "' not found.")
          else mkresponse 500 (lit "Error retrieving paste.")
        end,
        with_log (with_log s (EvPathBuilt p)) (EvRead p)).
Proof.
  intros Hv p. unfold retrieve_paste. rewrite Hv.
  rewrite (bind_Some _ _ _ _ _ (path_join_run _ _ _)).
  rewrite (bind_Some _ _ _ _ _ (fs_read_to_string_run _ _)).
  destruct (read_outcome _ _) as [c|e]; [reflexivity|].
  destruct (io_error_kind_eq_dec e NotFound); reflexivity.
Qed.

(** ** Identifier validation on the read path *)

Lemma forallb_false_Exists {A} (f : A -> bool) (l : list A) :
  forallb f l = false <-> Exists (fun x => f x = false) l.
Proof.
  induction l as [|x l IH]; simpl.
  - split; [discriminate|]. intros Hex. inversion Hex.
  - rewrite andb_false_iff, IH. split.
    + intros [Hx|Hl]; [by apply Exists_cons_hd | by apply Exists_cons_tl].
    + intros Hex. inversion Hex; auto.
Qed.

Lemma forallb_char_is_alphanumeric_ascii `{UnicodeTables} (id : bytes) :
  Forall (fun c => is_ascii_alphanumeric c = true) id ->
  forallb char_is_alphanumeric id = true.
Proof.
  induction 1 as [|c id Hc _ IH]; [reflexivity|]. simpl.
  rewrite ascii_alphanumeric_char_is_alphanumeric by (by apply ascii_alphanumeric_range).
  by rewrite Hc, IH.
Qed.

Lemma ascii_id_accepted `{UnicodeTables} (id : bytes) :
  Forall (fun c => is_ascii_alphanumeric c = true) id -> length id = ID_LENGTH ->
  id_rejected id = false.
Proof.
  intros Ha Hl. unfold id_rejected. rewrite Hl. simpl.
  rewrite str_chars_ascii.
  - by rewrite forallb_char_is_alphanumeric_ascii.
  - eapply Forall_impl; [exact Ha|]. apply ascii_alphanumeric_range.
Qed.

Lemma retrieve_paste_accepted_status `{UnicodeTables} paste_dir id s :
  id_rejected id = false ->
  exists r s', retrieve_paste paste_dir id s = Some (r, s') /\ status r <> 400.
Proof.
  intros Hv. rewrite (retrieve_paste_run _ _ _ Hv).
  eexists _, _. split; [reflexivity|]. by repeat case_match.
Qed.

(** C9. Every identifier the generator can produce passes the validation
    of [retrieve_paste], whatever the Unicode tables: a GET of it never
    answers 400. *)
Theorem generated_id_accepted `{UnicodeTables} s id s' :
  generate_id s = Some (id, s') ->
  id_rejected id = false
  /\ forall paste_dir s0, exists r s1, retrieve_paste paste_dir id s0 = Some (r, s1) /\ status r <> 400.
Proof.
  intros Hg. destruct (generate_id_spec _ _ _ Hg) as (Hl & Ha & _).
  assert (Hv : id_rejected id = false) by (by apply ascii_id_accepted).
  split; [exact Hv|]. intros. by apply retrieve_paste_accepted_status.
Qed.

Lemma generated_id_accepted_witness :
  generate_id (init_st [0; 0x7C000000; 0xFFFFFFFF; 1; 0x10000000; 0xF0000000; 0x20000000])
    = Some (lit "AfAE8I", mkst ∅ ∅ [] [] [])
  /\ id_rejected (lit "AfAE8I") = false.
Proof.
  split; [vm_compute; reflexivity|].
  apply (generated_id_accepted (init_st [0; 0x7C000000; 0xFFFFFFFF; 1; 0x10000000; 0xF0000000; 0x20000000])
           (lit "AfAE8I") (mkst ∅ ∅ [] [] [])).
  vm_compute. reflexivity.
Defined.

(** C2 (counterexample). With the Unicode tables (U+00E9 is Alphabetic),
    the validation accepts "aaaaé": a valid [String] that has 5 characters,
    not 6, and contains a character outside [A-Za-z0-9]. *)
Lemma id_validation_accepts_non_ascii :
  is_string aaaa_e_acute
  /\ str_chars aaaa_e_acute = [0x61; 0x61; 0x61; 0x61; 0xE9]
  /\ length (str_chars aaaa_e_acute) <> ID_LENGTH
  /\ Exists (fun c => is_ascii_alphanumeric c = false) (str_chars aaaa_e_acute)
  /\ id_rejected aaaa_e_acute = false.
Proof.
  split; [split; [repeat constructor; lia | vm_compute; eauto]|].
  split; [vm_compute; reflexivity|].
  split; [vm_compute; lia|].
  split; [|vm_compute; reflexivity].
  vm_compute. apply Exists_cons_tl, Exists_cons_tl, Exists_cons_tl, Exists_cons_tl, Exists_cons_hd.
  reflexivity.
Qed.

(** C2 (amended). The validation rejects a candidate exactly when its
    length in UTF-8 bytes is not 6 or one of its characters is not
    alphanumeric in Rust's Unicode sense ([char::is_alphanumeric]). In
    particular it accepts every 6-character string over [A-Za-z0-9] and
    rejects every candidate holding an ASCII character outside
    [A-Za-z0-9] (such as '.', '/' or ' '). *)
Theorem id_rejected_spec `{UnicodeTables} (id : bytes) :
  (id_rejected id = true <->
     length id <> ID_LENGTH \/ Exists (fun c => char_is_alphanumeric c = false) (str_chars id))
  /\ (Forall (fun c => is_ascii_alphanumeric c = true) id -> length id = ID_LENGTH ->
      str_chars id = id /\ id_rejected id = false)
  /\ (Exists (fun c => 0 <= c < 0x80 /\ is_ascii_alphanumeric c = false) (str_chars id) ->
      id_rejected id = true).
Proof.
  assert (Hspec : id_rejected id = true <->
     length id <> ID_LENGTH \/ Exists (fun c => char_is_alphanumeric c = false) (str_chars id)).
  { unfold id_rejected. rewrite orb_true_iff, !negb_true_iff, Nat.eqb_neq, forallb_false_Exists.
    reflexivity. }
  split; [exact Hspec|]. split.
  - intros Ha Hl. split; [|by apply ascii_id_accepted].
    apply str_chars_ascii. eapply Forall_impl; [exact Ha|]. apply ascii_alphanumeric_range.
  - intros Hex. apply Hspec. right. eapply Exists_impl; [exact Hex|].
    intros c [Hc Ha]. by rewrite ascii_alphanumeric_char_is_alphanumeric.
Qed.

(** ** The paste store *)

Lemma paste_store_write_run paste_dir id contents s :
  let p := paste_file paste_dir id in
  paste_store_write paste_dir id contents s =
  Some (write_outcome s p,
        mkst (write_files s p contents) (st_faulty s) (st_rng s) (st_body s)
             (EvWrite p :: EvPathBuilt p :: st_log s)).
Proof.
  intros p. unfold paste_store_write.
  rewrite (bind_Some _ _ _ _ _ (path_join_run _ _ _)). apply fs_write_run.
Qed.

Lemma paste_store_read_run paste_dir id s :
  let p := paste_file paste_dir id in
  paste_store_read paste_dir id s =
  Some (read_outcome s p, with_log (with_log s (EvPathBuilt p)) (EvRead p)).
Proof.
  intros p. unfold paste_store_read.
  rewrite (bind_Some _ _ _ _ _ (path_join_run _ _ _)). rewrite fs_read_to_string_run. reflexivity.
Qed.

(** C1. Round trip: when [write(id, content)] succeeds, the following
    [read(id)] returns [content], byte for byte. The content is a Rust
    [String] (valid UTF-8), as [fs::write] receives it in the handler. *)
Theorem paste_store_roundtrip paste_dir id content s s1 :
  is_string content ->
  paste_store_write paste_dir id content s = Some (Ok tt, s1) ->
  exists s2, paste_store_read paste_dir id s1 = Some (Ok content, s2).
Proof.
  intros [_ [cs Hcs]] Hw. rewrite paste_store_write_run in Hw.
  injection Hw as Hok <-.
  destruct (write_outcome_Ok s (paste_file paste_dir id) content Hok) as [Hf ->].
  rewrite paste_store_read_run. eexists. f_equal. f_equal.
  unfold read_outcome. simpl. rewrite lookup_insert_eq, Hf. by rewrite Hcs.
Qed.

Lemma paste_store_roundtrip_witness :
  is_string (lit "hello world")
  /\ paste_store_write (lit "pastes") (lit "aZ3kq9") (lit "hello world") (init_st [])
     = Some (Ok tt, mkst {[lit "pastes/aZ3kq9.txt" := lit "hello world"]} ∅ [] []
                         [EvWrite (lit "pastes/aZ3kq9.txt"); EvPathBuilt (lit "pastes/aZ3kq9.txt")])
  /\ exists s2, paste_store_read (lit "pastes") (lit "aZ3kq9")
       (mkst {[lit "pastes/aZ3kq9.txt" := lit "hello world"]} ∅ [] []
             [EvWrite (lit "pastes/aZ3kq9.txt"); EvPathBuilt (lit "pastes/aZ3kq9.txt")])
       = Some (Ok (lit "hello world"), s2).
Proof.
  assert (Hs : is_string (lit "hello world")).
  { split; [vm_compute; repeat constructor; discriminate | vm_compute; eauto]. }
  assert (Hw : paste_store_write (lit "pastes") (lit "aZ3kq9") (lit "hello world") (init_st [])
     = Some (Ok tt, mkst {[lit "pastes/aZ3kq9.txt" := lit "hello world"]} ∅ [] []
                         [EvWrite (lit "pastes/aZ3kq9.txt"); EvPathBuilt (lit "pastes/aZ3kq9.txt")])).
  { vm_compute. reflexivity. }
  split; [exact Hs|]. split; [exact Hw|].
  exact (paste_store_roundtrip _ _ _ _ _ Hs Hw).
Defined.

(** ** Outcomes of a read *)

Lemma read_outcome_NotFound s p :
  read_outcome s p = Err NotFound <-> st_files s !! p = None.
Proof.
  unfold read_outcome. split.
  - repeat case_match; congruence.
  - intros ->. reflexivity.
Qed.

(** C4. For a well-formed id, [retrieve_paste] has three outcomes, told
    apart by the status: 200 with the file's content when the read
    succeeds; 404 exactly when no file is stored at [<dir>/<id>.txt] (so
    for every id never written); 500 for every other error of the read. *)
Theorem retrieve_paste_outcomes `{UnicodeTables} paste_dir id s r s' :
  id_rejected id = false ->
  retrieve_paste paste_dir id s = Some (r, s') ->
  let p := paste_file paste_dir id in
  (status r = 200 \/ status r = 404 \/ status r = 500)
  /\ (forall content, status r = 200 /\ resp_body r = content <-> read_outcome s p = Ok content)
  /\ (status r = 404 <-> st_files s !! p = None)
  /\ (status r = 500 <-> exists e, read_outcome s p = Err e /\ e <> NotFound).
Proof.
  intros Hv Hr p. rewrite (retrieve_paste_run _ _ _ Hv) in Hr. fold p in Hr.
  injection Hr as <- _. rewrite <- read_outcome_NotFound.
  destruct (read_outcome s p) as [c|e] eqn:Ho; simpl.
  - split; [auto|]. split; [|split].
    + intros content. split; [intros [_ ->]; reflexivity | intros [= ->]; auto].
    + split; [lia | discriminate].
    + split; [lia | intros (e & [=] & _)].
  - destruct (io_error_kind_eq_dec e NotFound) as [->|Hne]; simpl.
    + split; [auto|]. split; [|split].
      * intros content. split; [intros [? _]; lia | discriminate].
      * split; auto.
      * split; [lia | intros (e' & [= <-] & Hne); congruence].
    + split; [auto|]. split; [|split].
      * intros content. split; [intros [? _]; lia | discriminate].
      * split; [lia | intros [= ->]; congruence].
      * split; [eauto | intros _; reflexivity].
Qed.

Lemma retrieve_paste_outcomes_witness :
  id_rejected (lit "000000") = false
  /\ retrieve_paste (lit "pastes") (lit "000000") (init_st [])
     = Some (mkresponse 404 (lit "Paste '000000' not found."),
             with_log (with_log (init_st []) (EvPathBuilt (lit "pastes/000000.txt")))
                      (EvRead (lit "pastes/000000.txt")))
  /\ status (mkresponse 404 (lit "Paste '000000' not found.")) = 404
  /\ st_files (init_st []) !! paste_file (lit "pastes") (lit "000000") = None.
Proof.
  assert (Hv : id_rejected (lit "000000") = false) by (vm_compute; reflexivity).
  assert (Hr : retrieve_paste (lit "pastes") (lit "000000") (init_st [])
     = Some (mkresponse 404 (lit "Paste '000000' not found."),
             with_log (with_log (init_st []) (EvPathBuilt (lit "pastes/000000.txt")))
                      (EvRead (lit "pastes/000000.txt")))) by (vm_compute; reflexivity).
  split; [exact Hv|]. split; [exact Hr|]. split; [reflexivity|].
  destruct (retrieve_paste_outcomes _ _ _ _ _ Hv Hr) as (_ & _ & H404 & _).
  by apply H404.
Defined.

(** C5. A request whose id fails validation is answered 400 with the state
    untouched: no path is built, no filesystem call is made. *)
Theorem retrieve_paste_rejects_before_fs `{UnicodeTables} paste_dir id s :
  id_rejected id = true ->
  retrieve_paste paste_dir id s = Some (bad_request (lit "Invalid paste ID format."), s).
Proof. intros Hr. unfold retrieve_paste. by rewrite Hr. Qed.

Lemma retrieve_paste_rejects_before_fs_witness :
  id_rejected (lit "../etc") = true
  /\ retrieve_paste (lit "pastes") (lit "../etc") (init_st [])
     = Some (bad_request (lit "Invalid paste ID format."), init_st []).
Proof.
  assert (Hr : id_rejected (lit "../etc") = true) by (vm_compute; reflexivity).
  split; [exact Hr|]. exact (retrieve_paste_rejects_before_fs _ _ _ Hr).
Defined.

(** ** The submission handler *)

Lemma next_paste_content_run s :
  next_paste_content s =
  Some (fst (read_fields (st_body s)),
        mkst (st_files s) (st_faulty s) (st_rng s) (snd (read_fields (st_body s))) (st_log s)).
Proof. unfold next_paste_content. by destruct (read_fields (st_body s)). Qed.

(** [handle_paste_submission] evaluated: the field loop, then the checks,
    the id, the write and the answer. *)
Lemma handle_paste_submission_run paste_dir headers s :
  let pc := fst (read_fields (st_body s)) in
  let rest := snd (read_fields (st_body s)) in
  let s1 := mkst (st_files s) (st_faulty s) (st_rng s) rest (st_log s) in
  handle_paste_submission paste_dir headers s =
  match pc with
  | Err r => Some (r, s1)
  | Ok None => Some (bad_request (lit "Missing 'rbin' form field"), s1)
  | Ok (Some content) =>
    if bool_decide (content = []) then Some (bad_request (lit "Paste content cannot be empty"), s1)
    else
      match sample_string ID_LENGTH (st_rng s) with
      | None => None
      | Some (id, rng') =>
        let p := paste_file paste_dir id in
        Some (match write_outcome s p with
              | Err e => mkresponse 500 (lit "Failed to save paste: " ++ io_error_display e)
              | Ok _ => mkresponse 200 ((request_scheme headers ++ lit "://" ++ request_host headers)
                                        ++ lit "/" ++ id)
              end,
              mkst (write_files s p content) (st_faulty s) rng' rest
                   (EvWrite p :: EvPathBuilt p :: st_log s))
      end
  end.
Proof.
  intros pc rest s1. unfold handle_paste_submission.
  rewrite (bind_Some _ _ _ _ _ (next_paste_content_run s)).
  fold pc rest s1.
  destruct pc as [[content|]|r]; [|reflexivity|reflexivity].
  case_bool_decide; [reflexivity|].
  destruct (sample_string _ _) as [[id rng']|] eqn:Hs.
  - assert (Hg : generate_id s1 = Some (id, mkst (st_files s) (st_faulty s) rng' rest (st_log s))).
    { unfold generate_id, s1. cbn [st_rng st_files st_faulty st_body st_log]. by rewrite Hs. }
    rewrite (bind_Some _ _ _ _ _ Hg).
    rewrite (bind_Some _ _ _ _ _ (path_join_run _ _ _)).
    rewrite (bind_Some _ _ _ _ _ (fs_write_run _ _ _)).
    unfold write_outcome, write_files, paste_file. simpl.
    by repeat case_match.
  - apply bind_None. unfold generate_id, s1. cbn [st_rng]. by rewrite Hs.
Qed.

Lemma read_fields_first_rbin pre f rest :
  Forall not_rbin pre -> fld_name f = Some (lit "rbin") ->
  read_fields (map MpField pre ++ MpField f :: rest) =
  (match fld_text f with
   | Ok data => Ok (Some data)
   | Err e => Err (bad_request (lit "Failed to read field data: " ++ e))
   end, rest).
Proof.
  intros Hpre Hf. induction Hpre as [|g pre Hg _ IH]; cbn [read_fields map app].
  - rewrite Hf. cbn [unwrap_or]. rewrite bool_decide_eq_true_2 by reflexivity.
    by destruct (fld_text f).
  - rewrite bool_decide_eq_false_2 by exact Hg. exact IH.
Qed.

(** C6. When the first ["rbin"] field is present and empty, the submission
    is answered 400 "Paste content cannot be empty" and nothing else
    happens: no id is drawn, no path built, nothing written; only the body
    up to that field has been consumed. *)
Theorem empty_paste_rejected paste_dir headers s pre f rest :
  Forall not_rbin pre -> fld_name f = Some (lit "rbin") -> fld_text f = Ok [] ->
  st_body s = map MpField pre ++ MpField f :: rest ->
  handle_paste_submission paste_dir headers s =
  Some (bad_request (lit "Paste content cannot be empty"),
        mkst (st_files s) (st_faulty s) (st_rng s) rest (st_log s)).
Proof.
  intros Hpre Hf Ht Hb. rewrite handle_paste_submission_run.
  rewrite Hb, (read_fields_first_rbin _ _ _ Hpre Hf), Ht. cbn [fst snd].
  rewrite bool_decide_eq_true_2 by reflexivity. reflexivity.
Qed.

Lemma empty_paste_rejected_witness :
  let s := mkst ∅ ∅ [0;0;0;0;0;0]
                [MpField (mkfield (Some (lit "other")) (Ok (lit "x"))); MpField (rbin_field []);
                 MpField (rbin_field (lit "late"))] [] in
  Forall not_rbin [mkfield (Some (lit "other")) (Ok (lit "x"))]
  /\ handle_paste_submission (lit "pastes") [] s
     = Some (bad_request (lit "Paste content cannot be empty"),
             mkst ∅ ∅ [0;0;0;0;0;0] [MpField (rbin_field (lit "late"))] []).
Proof.
  intros s.
  assert (Hpre : Forall not_rbin [mkfield (Some (lit "other")) (Ok (lit "x"))]).
  { constructor; [|constructor]. unfold not_rbin. vm_compute. discriminate. }
  split; [exact Hpre|].
  exact (empty_paste_rejected (lit "pastes") [] s _ (rbin_field []) _ Hpre eq_refl eq_refl eq_refl).
Defined.

Lemma read_fields_Err_400 body r rest :
  read_fields body = (Err r, rest) -> status r = 400.
Proof.
  induction body as [|[f|e] body IH]; cbn [read_fields].
  - discriminate.
  - case_bool_decide; [|exact IH]. destruct (fld_text f); intros [= <- _]; reflexivity.
  - intros [= <- _]. reflexivity.
Qed.

(** C7. The answers of POST /: 400 when the form cannot be read, when no
    ["rbin"] field is there, or when its content is empty; otherwise a fresh
    id is drawn and written: 200 with ["<scheme>://<host>/<id>"] when the
    write succeeds (the file then holds the content), 500 "Failed to save
    paste: <error>" when it fails. *)
Theorem submission_outcomes paste_dir headers s r s' :
  handle_paste_submission paste_dir headers s = Some (r, s') ->
  let pc := fst (read_fields (st_body s)) in
  (forall r0, pc = Err r0 -> r = r0 /\ status r = 400)
  /\ (pc = Ok None -> r = bad_request (lit "Missing 'rbin' form field"))
  /\ (pc = Ok (Some []) -> r = bad_request (lit "Paste content cannot be empty"))
  /\ (forall content, pc = Ok (Some content) -> content <> [] ->
      exists id, sample_string ID_LENGTH (st_rng s) = Some (id, st_rng s')
      /\ (write_outcome s (paste_file paste_dir id) = Ok tt ->
          r = mkresponse 200 (paste_url headers id)
          /\ st_files s' = <[paste_file paste_dir id := content]> (st_files s))
      /\ (forall e, write_outcome s (paste_file paste_dir id) = Err e ->
          r = mkresponse 500 (lit "Failed to save paste: " ++ io_error_display e))).
Proof.
  rewrite handle_paste_submission_run. intros Hr pc. fold pc in Hr.
  split; [|split; [|split]].
  - intros r0 Hpc. rewrite Hpc in Hr. injection Hr as <- _. split; [reflexivity|].
    apply (read_fields_Err_400 (st_body s) r0 (snd (read_fields (st_body s)))).
    rewrite <- Hpc. unfold pc. by destruct (read_fields (st_body s)).
  - intros Hpc. rewrite Hpc in Hr. by injection Hr as <- _.
  - intros Hpc. rewrite Hpc in Hr. rewrite bool_decide_eq_true_2 in Hr by reflexivity.
    by injection Hr as <- _.
  - intros content Hpc Hne. rewrite Hpc in Hr. rewrite bool_decide_eq_false_2 in Hr by exact Hne.
    destruct (sample_string ID_LENGTH (st_rng s)) as [[id rng']|]; [|discriminate].
    injection Hr as <- <-. exists id. split; [reflexivity|]. split.
    + intros Hok. rewrite Hok. split; [reflexivity|]. cbn [st_files].
      exact (proj2 (write_outcome_Ok _ _ content Hok)).
    + intros e He. by rewrite He.
Qed.

Lemma submission_outcomes_witness :
  let s := mkst ∅ ∅ [0;0;0;0;0;0] [MpField (rbin_field (lit "hello world"))] [] in
  let s' := mkst {[lit "pastes/AAAAAA.txt" := lit "hello world"]} ∅ [] []
                 [EvWrite (lit "pastes/AAAAAA.txt"); EvPathBuilt (lit "pastes/AAAAAA.txt")] in
  let headers := [(lit "host", lit "example.org")] in
  handle_paste_submission (lit "pastes") headers s
  = Some (mkresponse 200 (lit "http://example.org/AAAAAA"), s')
  /\ exists id, sample_string ID_LENGTH (st_rng s) = Some (id, st_rng s')
     /\ (write_outcome s (paste_file (lit "pastes") id) = Ok tt ->
         mkresponse 200 (lit "http://example.org/AAAAAA") = mkresponse 200 (paste_url headers id)
         /\ st_files s' = <[paste_file (lit "pastes") id := lit "hello world"]> (st_files s))
     /\ (forall e, write_outcome s (paste_file (lit "pastes") id) = Err e ->
         mkresponse 200 (lit "http://example.org/AAAAAA")
         = mkresponse 500 (lit "Failed to save paste: " ++ io_error_display e)).
Proof.
  intros s s' headers.
  assert (Hr : handle_paste_submission (lit "pastes") headers s
               = Some (mkresponse 200 (lit "http://example.org/AAAAAA"), s')).
  { vm_compute. reflexivity. }
  split; [exact Hr|].
  destruct (submission_outcomes _ _ _ _ _ Hr) as (_ & _ & _ & Hok).
  apply (Hok (lit "hello world")); [reflexivity | discriminate].
Defined.

(** C10. Only the first field named ["rbin"] is used: the fields before it
    are skipped whatever they hold, nothing after it is read (the rest of
    the body is left as it was), the handler answers as if that field were
    the whole body, and a successful submission stores exactly its text. *)
Theorem first_rbin_field_used paste_dir headers s pre f t rest r s' :
  Forall not_rbin pre -> fld_name f = Some (lit "rbin") -> fld_text f = Ok t ->
  st_body s = map MpField pre ++ MpField f :: rest ->
  handle_paste_submission paste_dir headers s = Some (r, s') ->
  st_body s' = rest
  /\ handle_paste_submission paste_dir headers (set_st_body s [MpField f]) = Some (r, set_st_body s' [])
  /\ (status r = 200 ->
      exists id, resp_body r = paste_url headers id
      /\ st_files s' = <[paste_file paste_dir id := t]> (st_files s)).
Proof.
  intros Hpre Hf Ht Hb Hr.
  assert (Hone : read_fields [MpField f] = (Ok (Some t), [])).
  { pose proof (read_fields_first_rbin [] f [] ltac:(constructor) Hf) as H1.
    rewrite Ht in H1. exact H1. }
  rewrite handle_paste_submission_run in Hr |- *.
  rewrite Hb, (read_fields_first_rbin _ _ _ Hpre Hf), Ht in Hr. cbn [fst snd] in Hr.
  cbn [st_body set_st_body]. rewrite Hone. cbn [fst snd].
  case_bool_decide as Hnil.
  - injection Hr as <- <-. split; [reflexivity|]. split; [reflexivity|].
    cbn [status bad_request]. lia.
  - destruct (sample_string ID_LENGTH (st_rng s)) as [[id rng']|] eqn:Hs; [|discriminate].
    cbn [set_st_body st_rng]. rewrite Hs.
    injection Hr as <- <-. split; [reflexivity|]. split; [reflexivity|].
    cbn [st_files set_st_body].
    destruct (write_outcome s (paste_file paste_dir id)) as [[]|e] eqn:Hw; cbn [status]; [|lia].
    intros _. eexists. split; [reflexivity|]. exact (proj2 (write_outcome_Ok _ _ t Hw)).
Qed.

Lemma first_rbin_field_used_witness :
  let other := mkfield (Some (lit "other")) (Ok (lit "ignored")) in
  let s := mkst ∅ ∅ [0;0;0;0;0;0]
                [MpField other; MpField (rbin_field (lit "first")); MpField (rbin_field (lit "second"))] [] in
  let s' := mkst {[lit "pastes/AAAAAA.txt" := lit "first"]} ∅ [] [MpField (rbin_field (lit "second"))]
                 [EvWrite (lit "pastes/AAAAAA.txt"); EvPathBuilt (lit "pastes/AAAAAA.txt")] in
  Forall not_rbin [other]
  /\ handle_paste_submission (lit "pastes") [] s = Some (mkresponse 200 (lit "http://localhost/AAAAAA"), s')
  /\ st_body s' = [MpField (rbin_field (lit "second"))]
  /\ handle_paste_submission (lit "pastes") [] (set_st_body s [MpField (rbin_field (lit "first"))])
     = Some (mkresponse 200 (lit "http://localhost/AAAAAA"), set_st_body s' []).
Proof.
  intros other s s'.
  assert (Hpre : Forall not_rbin [other]).
  { constructor; [|constructor]. unfold not_rbin. vm_compute. discriminate. }
  assert (Hr : handle_paste_submission (lit "pastes") [] s
               = Some (mkresponse 200 (lit "http://localhost/AAAAAA"), s')).
  { vm_compute. reflexivity. }
  split; [exact Hpre|]. split; [exact Hr|].
  destruct (first_rbin_field_used (lit "pastes") [] s [other] (rbin_field (lit "first")) (lit "first")
              [MpField (rbin_field (lit "second"))] _ _ Hpre eq_refl eq_refl eq_refl Hr)
    as (Hb & Hsame & _).
  split; [exact Hb | exact Hsame].
Defined.

(** ** Stored pastes over a run of requests *)

Lemma retrieve_paste_files `{UnicodeTables} paste_dir id s r s1 :
  retrieve_paste paste_dir id s = Some (r, s1) -> st_files s1 = st_files s.
Proof.
  destruct (id_rejected id) eqn:Hv.
  - unfold retrieve_paste. rewrite Hv. by intros [= _ <-].
  - rewrite (retrieve_paste_run _ _ _ Hv). by intros [= _ <-].
Qed.

Lemma handle_paste_submission_files paste_dir headers s r s1 :
  handle_paste_submission paste_dir headers s = Some (r, s1) ->
  st_files s1 = st_files s
  \/ exists id' content, sample_string ID_LENGTH (st_rng s) = Some (id', st_rng s1)
     /\ ((status r = 200 /\ resp_body r = paste_url headers id') \/ status r = 500)
     /\ st_files s1 = <[paste_file paste_dir id' := content]> (st_files s).
Proof.
  rewrite handle_paste_submission_run. cbv zeta.
  destruct (fst (read_fields (st_body s))) as [[content|]|r0].
  - case_bool_decide; [intros [= _ <-]; by left|].
    destruct (sample_string ID_LENGTH (st_rng s)) as [[id' rng']|] eqn:Hs; [|discriminate].
    intros [= <- <-]. cbn [st_files st_rng].
    destruct (write_outcome s (paste_file paste_dir id')) as [[]|e] eqn:Hw.
    + right. exists id', content. split; [reflexivity|]. split; [left; split; reflexivity|].
      exact (proj2 (write_outcome_Ok _ _ content Hw)).
    + destruct (write_outcome_Err _ _ content _ Hw) as [Hf|[n Hf]]; [by left|].
      right. exists id', (take n content). split; [reflexivity|]. split; [by right|]. exact Hf.
  - intros [= _ <-]. by left.
  - intros [= _ <-]. by left.
Qed.

Lemma serve_files `{UnicodeTables} paste_dir req s r s1 :
  serve paste_dir req s = Some (r, s1) ->
  st_files s1 = st_files s
  \/ exists headers body id' content, req = ReqPost headers body
     /\ sample_string ID_LENGTH (st_rng s) = Some (id', st_rng s1)
     /\ ((status r = 200 /\ resp_body r = paste_url headers id') \/ status r = 500)
     /\ st_files s1 = <[paste_file paste_dir id' := content]> (st_files s).
Proof.
  destruct req as [headers body|id]; cbn [serve].
  - rewrite (bind_Some _ _ _ _ _ (eq_refl : set_body body s = Some (tt, set_st_body s body))).
    intros Hr. destruct (handle_paste_submission_files _ _ _ _ _ Hr) as [Hf|(id' & c & Hs & Hst & Hf)].
    + by left.
    + right. exists headers, body, id', c. auto.
  - intros Hr. left. by apply (retrieve_paste_files paste_dir id s r).
Qed.

Lemma path_join_pure_inj dir a b :
  head a <> Some 47 -> head b <> Some 47 -> path_join_pure dir a = path_join_pure dir b -> a = b.
Proof.
  unfold path_join_pure. intros Ha Hb.
  rewrite !bool_decide_eq_false_2 by assumption.
  destruct (last dir) as [c|]; [|done]. destruct (c =? 47); intros Heq.
  - by apply app_inv_head in Heq.
  - apply app_inv_head in Heq. by injection Heq.
Qed.

Lemma paste_file_inj paste_dir id id' :
  Forall (fun b => is_ascii_alphanumeric b = true) id ->
  Forall (fun b => is_ascii_alphanumeric b = true) id' ->
  paste_file paste_dir id' = paste_file paste_dir id -> id' = id.
Proof.
  assert (Hhead : forall x, Forall (fun b => is_ascii_alphanumeric b = true) x ->
                            head (x ++ lit ".txt") <> Some 47).
  { intros [|b x] Hx; [vm_compute; congruence|]. cbn [head app].
    inversion Hx as [|? ? Hb _]; subst. intros [= ->]. discriminate Hb. }
  intros Ha Ha' Heq. unfold paste_file in Heq.
  apply path_join_pure_inj in Heq; [|by apply Hhead..].
  by apply app_inv_tail in Heq.
Qed.

(** C8 (counterexample). No existence check guards the write: two
    submissions that draw the same id ("AAAAAA" here) both succeed, and the
    second replaces the content the first stored, so the content readable
    under an issued and persisted id changes from "first" to "second". *)
Lemma colliding_submission_overwrites :
  match serve_all (lit "pastes")
          [ReqPost [] [MpField (rbin_field (lit "first"))]; ReqGet (lit "AAAAAA");
           ReqPost [] [MpField (rbin_field (lit "second"))]; ReqGet (lit "AAAAAA")]
          (init_st [0; 0; 0; 0; 0; 0; 0; 0; 0; 0; 0; 0]) with
  | Some (rs, _) =>
    rs = [mkresponse 200 (lit "http://localhost/AAAAAA"); mkresponse 200 (lit "first");
          mkresponse 200 (lit "http://localhost/AAAAAA"); mkresponse 200 (lit "second")]
  | None => False
  end.
Proof. vm_compute. reflexivity. Qed.

(** C8 (amended). The content stored under an id changes only through a
    later submission that draws the same id: one answered 200 with that
    id's URL (its write replaces the file) or one answered 500 (its write
    failed, possibly after truncating the file). Retrievals, submissions
    answered 400 and submissions drawing another id leave it as it was.
    The submission is the [i]-th request, run from the state [si] the
    first [i] requests lead to, and its random draw is [id]. *)
Theorem stored_paste_changes_only_by_same_id `{UnicodeTables} paste_dir reqs s rs s' id c :
  Forall (fun b => is_ascii_alphanumeric b = true) id ->
  st_files s !! paste_file paste_dir id = Some c ->
  serve_all paste_dir reqs s = Some (rs, s') ->
  st_files s' !! paste_file paste_dir id = Some c
  \/ exists i headers body rsi si r si1,
      reqs !! i = Some (ReqPost headers body)
      /\ serve_all paste_dir (take i reqs) s = Some (rsi, si)
      /\ serve paste_dir (ReqPost headers body) si = Some (r, si1)
      /\ rs !! i = Some r
      /\ sample_string ID_LENGTH (st_rng si) = Some (id, st_rng si1)
      /\ ((status r = 200 /\ resp_body r = paste_url headers id) \/ status r = 500).
Proof.
  intros Hid. revert s rs.
  induction reqs as [|req reqs IH]; intros s rs Hc Hrun; cbn [serve_all] in Hrun.
  - injection Hrun as _ <-. by left.
  - unfold bind in Hrun.
    destruct (serve paste_dir req s) as [[r s1]|] eqn:Hstep; [|discriminate].
    destruct (serve_all paste_dir reqs s1) as [[rs1 s2]|] eqn:Hrest; [|discriminate].
    injection Hrun as <- <-.
    assert (Hc1 : st_files s1 !! paste_file paste_dir id = Some c
                  \/ exists headers body, req = ReqPost headers body
                     /\ sample_string ID_LENGTH (st_rng s) = Some (id, st_rng s1)
                     /\ ((status r = 200 /\ resp_body r = paste_url headers id) \/ status r = 500)).
    { destruct (serve_files _ _ _ _ _ Hstep) as [Hf|(hs & b & id' & c' & -> & Hs & Hst & Hf)].
      - left. by rewrite Hf.
      - destruct (decide (paste_file paste_dir id' = paste_file paste_dir id)) as [Heq|Hne].
        + right. apply paste_file_inj in Heq; [|done|exact (proj2 (sample_string_spec _ _ _ _ Hs))].
          subst id'. eauto.
        + left. rewrite Hf. by rewrite lookup_insert_ne. }
    destruct Hc1 as [Hc1|(hs & b & -> & Hs & Hst)].
    + destruct (IH s1 rs1 Hc1 Hrest)
        as [Hl|(i & hs & b & rsi & si & r' & si1 & Hi & Hpre & Hsi & Hr' & Hs & Hst)]; [by left|].
      right. exists (S i), hs, b, (r :: rsi), si, r', si1.
      split; [exact Hi|]. split.
      { cbn [take serve_all]. unfold bind. by rewrite Hstep, Hpre. }
      split; [exact Hsi|]. split; [exact Hr'|]. split; [exact Hs|exact Hst].
    + right. exists 0%nat, hs, b, [], s, r, s1.
      split; [reflexivity|]. split; [reflexivity|]. split; [exact Hstep|].
      split; [reflexivity|]. split; [exact Hs|exact Hst].
Qed.

Lemma stored_paste_changes_only_by_same_id_witness :
  Forall (fun b => is_ascii_alphanumeric b = true) (lit "AAAAAA")
  /\ st_files (mkst {[lit "pastes/AAAAAA.txt" := lit "first"]} ∅ [0; 0; 0; 0; 0; 0] [] [])
       !! paste_file (lit "pastes") (lit "AAAAAA") = Some (lit "first")
  /\ serve_all (lit "pastes") [ReqGet (lit "AAAAAA"); ReqPost [] [MpField (rbin_field (lit "second"))]]
       (mkst {[lit "pastes/AAAAAA.txt" := lit "first"]} ∅ [0; 0; 0; 0; 0; 0] [] [])
     = Some ([mkresponse 200 (lit "first"); mkresponse 200 (lit "http://localhost/AAAAAA")],
             mkst {[lit "pastes/AAAAAA.txt" := lit "second"]} ∅ [] []
                  [EvWrite (lit "pastes/AAAAAA.txt"); EvPathBuilt (lit "pastes/AAAAAA.txt");
                   EvRead (lit "pastes/AAAAAA.txt"); EvPathBuilt (lit "pastes/AAAAAA.txt")])
  /\ (st_files (mkst {[lit "pastes/AAAAAA.txt" := lit "second"]} ∅ [] []
                 [EvWrite (lit "pastes/AAAAAA.txt"); EvPathBuilt (lit "pastes/AAAAAA.txt");
                  EvRead (lit "pastes/AAAAAA.txt"); EvPathBuilt (lit "pastes/AAAAAA.txt")])
        !! paste_file (lit "pastes") (lit "AAAAAA") = Some (lit "first")
      \/ exists i headers body rsi si r si1,
         [ReqGet (lit "AAAAAA"); ReqPost [] [MpField (rbin_field (lit "second"))]] !! i
           = Some (ReqPost headers body)
         /\ serve_all (lit "pastes")
              (take i [ReqGet (lit "AAAAAA"); ReqPost [] [MpField (rbin_field (lit "second"))]])
              (mkst {[lit "pastes/AAAAAA.txt" := lit "first"]} ∅ [0; 0; 0; 0; 0; 0] [] [])
            = Some (rsi, si)
         /\ serve (lit "pastes") (ReqPost headers body) si = Some (r, si1)
         /\ [mkresponse 200 (lit "first"); mkresponse 200 (lit "http://localhost/AAAAAA")] !! i = Some r
         /\ sample_string ID_LENGTH (st_rng si) = Some (lit "AAAAAA", st_rng si1)
         /\ ((status r = 200 /\ resp_body r = paste_url headers (lit "AAAAAA")) \/ status r = 500)).
Proof.
  assert (Ha : Forall (fun b => is_ascii_alphanumeric b = true) (lit "AAAAAA")).
  { vm_compute. repeat constructor. }
  assert (Hc : st_files (mkst {[lit "pastes/AAAAAA.txt" := lit "first"]} ∅ [0; 0; 0; 0; 0; 0] [] [])
       !! paste_file (lit "pastes") (lit "AAAAAA") = Some (lit "first")) by (vm_compute; reflexivity).
  assert (Hr : serve_all (lit "pastes") [ReqGet (lit "AAAAAA"); ReqPost [] [MpField (rbin_field (lit "second"))]]
       (mkst {[lit "pastes/AAAAAA.txt" := lit "first"]} ∅ [0; 0; 0; 0; 0; 0] [] [])
     = Some ([mkresponse 200 (lit "first"); mkresponse 200 (lit "http://localhost/AAAAAA")],
             mkst {[lit "pastes/AAAAAA.txt" := lit "second"]} ∅ [] []
                  [EvWrite (lit "pastes/AAAAAA.txt"); EvPathBuilt (lit "pastes/AAAAAA.txt");
                   EvRead (lit "pastes/AAAAAA.txt"); EvPathBuilt (lit "pastes/AAAAAA.txt")]))
    by (vm_compute; reflexivity).
  split; [exact Ha|]. split; [exact Hc|]. split; [exact Hr|].
  exact (stored_paste_changes_only_by_same_id _ _ _ _ _ _ _ Ha Hc Hr).
Defined.

(** * Further properties of the code *)

(** ** Port configuration ([main]) *)

Definition is_dec_digit (c : Z) : Prop := 48 <= c <= 57.

(** The value of a string of decimal digits. *)
Definition decimal_value (ds : bytes) : Z := fold_left (fun a c => a * 10 + (c - 48)) ds 0.

Lemma fold_decimal_mono ds a :
  0 <= a -> Forall is_dec_digit ds -> a <= fold_left (fun a c => a * 10 + (c - 48)) ds a.
Proof.
  intros Ha Hd. revert a Ha. induction Hd as [|c ds Hc _ IH]; intros a Ha; simpl; [lia|].
  unfold is_dec_digit in Hc. specialize (IH (a * 10 + (c - 48))). lia.
Qed.

Lemma u16_accumulate_spec ds acc n :
  0 <= acc < 65536 ->
  u16_accumulate acc ds = Some n <->
  Forall is_dec_digit ds /\ fold_left (fun a c => a * 10 + (c - 48)) ds acc = n /\ n < 65536.
Proof.
  revert acc. induction ds as [|c ds IH]; intros acc Hacc; simpl.
  - split; [intros [= <-]; repeat split; [constructor|lia] | intros (_ & <- & _); reflexivity].
  - unfold dec_digit. destruct ((48 <=? c) && (c <=? 57)) eqn:Hc.
    + apply andb_true_iff in Hc as [Hc1 Hc2]. apply Z.leb_le in Hc1, Hc2.
      destruct (acc * 10 + (c - 48) <? 65536) eqn:Hv.
      * apply Z.ltb_lt in Hv. rewrite IH by lia. split.
        -- intros (Hd & Hf & Hn). repeat split; [constructor; [unfold is_dec_digit; lia|exact Hd]|exact Hf|exact Hn].
        -- intros (Hd & Hf & Hn). inversion Hd; subst. auto.
      * apply Z.ltb_ge in Hv. split; [discriminate|].
        intros (Hd & Hf & Hn). inversion Hd as [|? ? _ Hd']; subst.
        pose proof (fold_decimal_mono ds (acc * 10 + (c - 48)) ltac:(lia) Hd'). lia.
    + split; [discriminate|]. intros (Hd & _). inversion Hd as [|? ? Hc' _]; subst.
      unfold is_dec_digit in Hc'. apply andb_false_iff in Hc as [Hc|Hc]; lia.
Qed.

(** [<u16 as FromStr>::from_str] accepts exactly the strings made of an
    optional ['+'] and a non-empty run of decimal digits whose value is
    below 65536 (leading zeros allowed), and returns that value. *)
Theorem u16_from_str_spec (src : bytes) (n : Z) :
  u16_from_str src = Some n <->
  exists ds, (src = ds \/ src = 43 :: ds) /\ ds <> [] /\ Forall is_dec_digit ds
             /\ decimal_value ds = n /\ n < 65536.
Proof.
  unfold u16_from_str, decimal_value. destruct src as [|c rest].
  - split; [discriminate|]. intros (ds & [H|H] & Hne & _); [subst; done | discriminate].
  - destruct (((c =? 43) || (c =? 45)) && bool_decide (rest = [])) eqn:Hsign.
    + split; [discriminate|]. apply andb_true_iff in Hsign as [Hpm Hr].
      apply bool_decide_eq_true in Hr. subst rest.
      intros (ds & [H|H] & Hne & Hd & _).
      * subst ds. inversion Hd as [|? ? Hc _]. unfold is_dec_digit in Hc.
        apply orb_true_iff in Hpm as [Hpm|Hpm]; apply Z.eqb_eq in Hpm; lia.
      * injection H as _ <-. done.
    + destruct (c =? 43) eqn:Hplus.
      * apply Z.eqb_eq in Hplus. subst c. rewrite u16_accumulate_spec by lia.
        assert (Hne : rest <> []).
        { intros ->. simpl in Hsign. discriminate. }
        split.
        -- intros (Hd & Hf & Hn). exists rest. auto.
        -- intros (ds & [H|H] & Hne' & Hd & Hf & Hn).
           ++ subst ds. inversion Hd as [|? ? Hc _]. unfold is_dec_digit in Hc. lia.
           ++ injection H as <-. auto.
      * rewrite u16_accumulate_spec by lia. split.
        -- intros (Hd & Hf & Hn). exists (c :: rest). split; [by left|]. auto.
        -- intros (ds & [H|H] & Hne & Hd & Hf & Hn).
           ++ subst ds. auto.
           ++ injection H as -> _. discriminate.
Qed.

Lemma u16_from_str_range (src : bytes) (n : Z) : u16_from_str src = Some n -> 0 <= n < 65536.
Proof.
  unfold u16_from_str. destruct src as [|c rest]; [discriminate|].
  assert (Hacc : forall ds, u16_accumulate 0 ds = Some n -> 0 <= n < 65536).
  { intros ds Hds. apply u16_accumulate_spec in Hds as (Hd & Hf & Hn); [|lia].
    pose proof (fold_decimal_mono ds 0 ltac:(lia) Hd). lia. }
  repeat case_match; eauto; discriminate.
Qed.

Definition u16_roundtrip_check (n : Z) : bool :=
  match u16_from_str (u16_to_string n) with
  | Some m => m =? n
  | None => false
  end.

Fixpoint u16_roundtrip_from (fuel : nat) (n : Z) : bool :=
  match fuel with
  | O => true
  | S f => u16_roundtrip_check n && u16_roundtrip_from f (n + 1)
  end.

Lemma u16_roundtrip_from_spec fuel n m :
  u16_roundtrip_from fuel n = true -> n <= m < n + Z.of_nat fuel -> u16_roundtrip_check m = true.
Proof.
  revert n. induction fuel as [|f IH]; intros n Hall Hm; [lia|].
  simpl in Hall. apply andb_true_iff in Hall as [Hn Hrest].
  destruct (Z.eq_dec m n) as [->|Hne]; [exact Hn|].
  apply (IH (n + 1)); [exact Hrest|lia].
Qed.

Lemma u16_roundtrip_all : u16_roundtrip_from (Z.to_nat 65536) 0 = true.
Proof. vm_compute. reflexivity. Qed.

(** [to_string] then [parse] is the identity on [u16]: [DEFAULT_PORT] and
    every port written in decimal read back as themselves. *)
Theorem u16_to_string_from_str (n : Z) :
  0 <= n < 65536 -> u16_from_str (u16_to_string n) = Some n.
Proof.
  intros Hn. pose proof (Z2Nat.id 65536 ltac:(lia)) as H65536.
  pose proof (u16_roundtrip_from_spec _ 0 n u16_roundtrip_all ltac:(lia)) as Hc.
  unfold u16_roundtrip_check in Hc.
  destruct (u16_from_str (u16_to_string n)) as [m|]; [|discriminate].
  f_equal. apply Z.eqb_eq. exact Hc.
Qed.

Lemma u16_to_string_from_str_witness :
  0 <= 8080 < 65536 /\ u16_from_str (u16_to_string 8080) = Some 8080.
Proof. split; [lia|]. apply u16_to_string_from_str. lia. Defined.

(** ** Paths of accepted ids ([retrieve_paste]) *)

(** In valid UTF-8 an ASCII byte is a character of its own. *)
Lemma utf8_chars_ascii_byte (n : nat) :
  forall bs cs b, (length bs <= n)%nat -> utf8_chars bs = Some cs ->
  b ∈ bs -> 0 <= b < 0x80 -> b ∈ cs.
Proof.
  induction n as [|n IH]; intros bs cs b Hlen Hd Hb Hr.
  { destruct bs; [inversion Hb|simpl in Hlen; lia]. }
  destruct bs as [|x r0]; [inversion Hb|]. simpl in Hlen.
  cbn [utf8_chars] in Hd.
  repeat match goal with
  | H : context [if ?c then _ else _] |- _ => destruct c eqn:?
  | H : context [match ?l with [] => _ | _ :: _ => _ end] |- _ => destruct l eqn:?
  | H : fmap _ (utf8_chars ?l) = Some _ |- _ => destruct (utf8_chars l) eqn:?
  end; simplify_eq/=;
  repeat match goal with
  | H : _ && _ = true |- _ => apply andb_true_iff in H as [? ?]
  | H : (_ <=? _) = true |- _ => apply Z.leb_le in H
  | H : (_ <? _) = true |- _ => apply Z.ltb_lt in H
  | H : (_ <? _) = false |- _ => apply Z.ltb_ge in H
  | H : is_cont _ = true |- _ => unfold is_cont in H
  end;
  repeat match goal with
  | H : b ∈ _ :: _ |- _ => apply elem_of_cons in H as [->|H]; [try lia|]
  end;
  try (apply elem_of_cons; first [by left | right]);
  eapply IH; eauto; simpl in *; lia.
Qed.

Lemma accepted_id_no_byte `{UnicodeTables} (id : bytes) (b : Z) :
  is_string id -> id_rejected id = false -> 0 <= b < 0x80 -> char_is_alphanumeric b = false -> b ∉ id.
Proof.
  intros [_ [cs Hcs]] Hv Hb Hna Hin. unfold id_rejected in Hv.
  apply orb_false_iff in Hv as [_ Hall]. apply negb_false_iff in Hall.
  unfold str_chars in Hall. rewrite Hcs in Hall.
  pose proof (utf8_chars_ascii_byte (length id) id cs b ltac:(lia) Hcs Hin Hb) as Hc.
  apply list_elem_of_In in Hc. rewrite forallb_forall in Hall.
  rewrite (Hall b Hc) in Hna. discriminate.
Qed.

Lemma accepted_id_length `{UnicodeTables} (id : bytes) : id_rejected id = false -> length id = ID_LENGTH.
Proof.
  unfold id_rejected. intros Hv. apply orb_false_iff in Hv as [Hl _].
  apply negb_false_iff, Nat.eqb_eq in Hl. exact Hl.
Qed.

Lemma accepted_id_head `{UnicodeTables} (id : bytes) :
  is_string id -> id_rejected id = false -> head (id ++ lit ".txt") <> Some 47.
Proof.
  intros Hs Hv. pose proof (accepted_id_length id Hv) as Hl.
  destruct id as [|b id']; [discriminate|]. cbn [head app]. intros [= ->].
  apply (accepted_id_no_byte (47 :: id') 47 Hs Hv); [lia|reflexivity|left].
Qed.



(** ** The two handlers together *)

(** A submission answered 200 hands out a URL ending in an id under which
    [retrieve_paste] then answers 200 with exactly the submitted content:
    the id is one the GET handler accepts, and the file it reads is the one
    the POST handler wrote. *)
Theorem submission_then_retrieval `{UnicodeTables} paste_dir headers s r s1 t :
  fst (read_fields (st_body s)) = Ok (Some t) -> is_string t ->
  handle_paste_submission paste_dir headers s = Some (r, s1) -> status r = 200 ->
  exists id, resp_body r = paste_url headers id /\ length id = ID_LENGTH
    /\ retrieve_paste paste_dir id s1
       = Some (mkresponse 200 t,
               with_log (with_log s1 (EvPathBuilt (paste_file paste_dir id)))
                        (EvRead (paste_file paste_dir id))).
Proof.
  intros Ht [_ [cs Hcs]]. rewrite handle_paste_submission_run. cbv zeta. rewrite Ht.
  case_bool_decide; [intros [= <- _]; discriminate|].
  destruct (sample_string ID_LENGTH (st_rng s)) as [[id rng']|] eqn:Hs; [|discriminate].
  destruct (write_outcome s (paste_file paste_dir id)) as [[]|e] eqn:Hw;
    intros [= <- <-]; [|discriminate]. intros _.
  destruct (write_outcome_Ok _ _ t Hw) as [Hf Hfiles].
  apply sample_string_spec in Hs as [Hl Ha].
  exists id. split; [reflexivity|]. split; [exact Hl|].
  rewrite (retrieve_paste_run _ _ _ (ascii_id_accepted id Ha Hl)).
  unfold read_outcome. cbn [st_files st_faulty]. rewrite Hfiles, lookup_insert_eq, Hf, Hcs.
  reflexivity.
Qed.

Lemma submission_then_retrieval_witness :
  let s := mkst ∅ ∅ [0;0;0;0;0;0] [MpField (rbin_field (lit "hello"))] [] in
  fst (read_fields (st_body s)) = Ok (Some (lit "hello")) /\ is_string (lit "hello")
  /\ handle_paste_submission (lit "pastes") [] s
     = Some (mkresponse 200 (lit "http://localhost/AAAAAA"),
             mkst {[lit "pastes/AAAAAA.txt" := lit "hello"]} ∅ [] []
                  [EvWrite (lit "pastes/AAAAAA.txt"); EvPathBuilt (lit "pastes/AAAAAA.txt")])
  /\ status (mkresponse 200 (lit "http://localhost/AAAAAA")) = 200
  /\ exists id, resp_body (mkresponse 200 (lit "http://localhost/AAAAAA")) = paste_url [] id
     /\ length id = ID_LENGTH
     /\ retrieve_paste (lit "pastes") id
          (mkst {[lit "pastes/AAAAAA.txt" := lit "hello"]} ∅ [] []
                [EvWrite (lit "pastes/AAAAAA.txt"); EvPathBuilt (lit "pastes/AAAAAA.txt")])
        = Some (mkresponse 200 (lit "hello"),
                with_log (with_log (mkst {[lit "pastes/AAAAAA.txt" := lit "hello"]} ∅ [] []
                   [EvWrite (lit "pastes/AAAAAA.txt"); EvPathBuilt (lit "pastes/AAAAAA.txt")])
                   (EvPathBuilt (paste_file (lit "pastes") id))) (EvRead (paste_file (lit "pastes") id))).
Proof.
  intros s.
  assert (Ht : fst (read_fields (st_body s)) = Ok (Some (lit "hello"))) by (vm_compute; reflexivity).
  assert (Hs : is_string (lit "hello")).
  { split; [vm_compute; repeat constructor; discriminate | vm_compute; eauto]. }
  assert (Hh : handle_paste_submission (lit "pastes") [] s
     = Some (mkresponse 200 (lit "http://localhost/AAAAAA"),
             mkst {[lit "pastes/AAAAAA.txt" := lit "hello"]} ∅ [] []
                  [EvWrite (lit "pastes/AAAAAA.txt"); EvPathBuilt (lit "pastes/AAAAAA.txt")])).
  { vm_compute. reflexivity. }
  split; [exact Ht|]. split; [exact Hs|]. split; [exact Hh|]. split; [reflexivity|].
  exact (submission_then_retrieval (lit "pastes") [] s _ _ _ Ht Hs Hh eq_refl).
Defined.

(** ** What a failed submission leaves *)

(** A submission not answered 200 is answered 400 or 500. On 400 no id
    has been drawn, no path built and no file touched. On 500 an id has
    been drawn and its write failed: all other files are as before, and the
    id's own file is either as before (the open failed) or holds a prefix
    of the submitted content (the write stopped part-way). *)
Theorem failed_submission_effects paste_dir headers s r s1 :
  handle_paste_submission paste_dir headers s = Some (r, s1) -> status r <> 200 ->
  (status r = 400 /\ st_files s1 = st_files s /\ st_rng s1 = st_rng s /\ st_log s1 = st_log s)
  \/ (status r = 500 /\ exists content id,
        fst (read_fields (st_body s)) = Ok (Some content)
        /\ sample_string ID_LENGTH (st_rng s) = Some (id, st_rng s1)
        /\ (st_files s1 = st_files s
            \/ exists n, st_files s1 = <[paste_file paste_dir id := take n content]> (st_files s))).
Proof.
  rewrite handle_paste_submission_run. cbv zeta.
  destruct (read_fields (st_body s)) as [pc rest] eqn:Hrf. cbn [fst snd].
  destruct pc as [[content|]|r0].
  - case_bool_decide; [intros [= <- <-] _; left; auto|].
    destruct (sample_string ID_LENGTH (st_rng s)) as [[id rng']|] eqn:Hs; [|discriminate].
    destruct (write_outcome s (paste_file paste_dir id)) as [[]|e] eqn:Hw;
      intros [= <- <-]; [done|]. intros _.
    right. split; [reflexivity|]. exists content, id. cbn [st_files st_rng].
    split; [reflexivity|]. split; [reflexivity|]. exact (write_outcome_Err _ _ content _ Hw).
  - intros [= <- <-] _. left. auto.
  - intros [= <- <-] _. left. split; [exact (read_fields_Err_400 _ _ _ Hrf)|]. auto.
Qed.

Lemma failed_submission_effects_witness :
  let s := mkst ∅ {[lit "pastes/AAAAAA.txt" := ShortWrite 2 StorageFull]} [0;0;0;0;0;0]
                [MpField (rbin_field (lit "hello"))] [] in
  let s1 := mkst {[lit "pastes/AAAAAA.txt" := lit "he"]} {[lit "pastes/AAAAAA.txt" := ShortWrite 2 StorageFull]}
                 [] [] [EvWrite (lit "pastes/AAAAAA.txt"); EvPathBuilt (lit "pastes/AAAAAA.txt")] in
  let r := mkresponse 500 (lit "Failed to save paste: No space left on device (os error 28)") in
  handle_paste_submission (lit "pastes") [] s = Some (r, s1)
  /\ status r <> 200
  /\ ((status r = 400 /\ st_files s1 = st_files s /\ st_rng s1 = st_rng s /\ st_log s1 = st_log s)
      \/ (status r = 500 /\ exists content id,
            fst (read_fields (st_body s)) = Ok (Some content)
            /\ sample_string ID_LENGTH (st_rng s) = Some (id, st_rng s1)
            /\ (st_files s1 = st_files s
                \/ exists n, st_files s1 = <[paste_file (lit "pastes") id := take n content]> (st_files s)))).
Proof.
  intros s s1 r.
  assert (Hh : handle_paste_submission (lit "pastes") [] s = Some (r, s1)) by (vm_compute; reflexivity).
  assert (Hn : status r <> 200) by (cbn; lia).
  split; [exact Hh|]. split; [exact Hn|].
  exact (failed_submission_effects _ _ _ _ _ Hh Hn).
Defined.

(** ** Edges of the field loop *)

Lemma read_fields_no_rbin fs :
  Forall not_rbin fs -> read_fields (map MpField fs) = (Ok None, []).
Proof.
  induction 1 as [|f fs Hf _ IH]; cbn [read_fields map]; [reflexivity|].
  rewrite bool_decide_eq_false_2 by exact Hf. exact IH.
Qed.

Lemma read_fields_error_first pre e rest :
  Forall not_rbin pre ->
  read_fields (map MpField pre ++ MpError e :: rest)
  = (Err (bad_request (lit "Error processing form data: " ++ e)), rest).
Proof.
  induction 1 as [|f pre Hf _ IH]; cbn [read_fields map app]; [reflexivity|].
  rewrite bool_decide_eq_false_2 by exact Hf. exact IH.
Qed.

(** A well-formed form without a field named ["rbin"] is read to its end
    (every field drained) and answered 400 "Missing 'rbin' form field";
    nothing else happens. *)
Theorem missing_rbin_field paste_dir headers s fs :
  Forall not_rbin fs -> st_body s = map MpField fs ->
  handle_paste_submission paste_dir headers s
  = Some (bad_request (lit "Missing 'rbin' form field"), set_st_body s []).
Proof.
  intros Hfs Hb. rewrite handle_paste_submission_run. cbv zeta.
  rewrite Hb, (read_fields_no_rbin fs Hfs). reflexivity.
Qed.

Lemma missing_rbin_field_witness :
  let s := mkst ∅ ∅ [0] [MpField (mkfield (Some (lit "text")) (Ok (lit "x")));
                         MpField (mkfield None (Ok (lit "y")))] [] in
  Forall not_rbin [mkfield (Some (lit "text")) (Ok (lit "x")); mkfield None (Ok (lit "y"))]
  /\ handle_paste_submission (lit "pastes") [] s
     = Some (bad_request (lit "Missing 'rbin' form field"), set_st_body s []).
Proof.
  intros s.
  assert (Hfs : Forall not_rbin [mkfield (Some (lit "text")) (Ok (lit "x")); mkfield None (Ok (lit "y"))]).
  { repeat constructor; unfold not_rbin; vm_compute; discriminate. }
  split; [exact Hfs|]. exact (missing_rbin_field _ _ s _ Hfs eq_refl).
Defined.

(** A multipart error met before the first ["rbin"] field ends the request
    with 400 "Error processing form data: <error>": a valid ["rbin"] field
    after it is never read, and no id is drawn and nothing is written. *)
Theorem form_error_before_rbin paste_dir headers s pre e rest :
  Forall not_rbin pre -> st_body s = map MpField pre ++ MpError e :: rest ->
  handle_paste_submission paste_dir headers s
  = Some (bad_request (lit "Error processing form data: " ++ e), set_st_body s rest).
Proof.
  intros Hpre Hb. rewrite handle_paste_submission_run. cbv zeta.
  rewrite Hb, (read_fields_error_first pre e rest Hpre). reflexivity.
Qed.

Lemma form_error_before_rbin_witness :
  let s := mkst ∅ ∅ [0;0;0;0;0;0] [MpField (mkfield (Some (lit "a")) (Ok (lit "x")));
                                   MpError (lit "incomplete"); MpField (rbin_field (lit "hello"))] [] in
  Forall not_rbin [mkfield (Some (lit "a")) (Ok (lit "x"))]
  /\ handle_paste_submission (lit "pastes") [] s
     = Some (bad_request (lit "Error processing form data: " ++ lit "incomplete"),
             set_st_body s [MpField (rbin_field (lit "hello"))]).
Proof.
  intros s.
  assert (Hpre : Forall not_rbin [mkfield (Some (lit "a")) (Ok (lit "x"))]).
  { repeat constructor; unfold not_rbin; vm_compute; discriminate. }
  split; [exact Hpre|]. exact (form_error_before_rbin _ _ s _ _ _ Hpre eq_refl).
Defined.

(** ** Reach of the id generator *)

Definition charset_has (c : Z) : bool :=
  negb (is_ascii_alphanumeric c) || existsb (fun i => nth i GEN_ASCII_STR_CHARSET 0 =? c) (seq 0 62).

Fixpoint charset_has_from (fuel : nat) (c : Z) : bool :=
  match fuel with
  | O => true
  | S f => charset_has c && charset_has_from f (c + 1)
  end.

Lemma charset_has_all : charset_has_from 128 0 = true.
Proof. vm_compute. reflexivity. Qed.

Lemma charset_complete c :
  is_ascii_alphanumeric c = true -> exists i, (i < 62)%nat /\ nth i GEN_ASCII_STR_CHARSET 0 = c.
Proof.
  intros Hc. pose proof (ascii_alphanumeric_range c Hc) as Hr.
  assert (Hh : charset_has c = true).
  { assert (Hgen : forall fuel n, charset_has_from fuel n = true ->
                     n <= c < n + Z.of_nat fuel -> charset_has c = true).
    { induction fuel as [|f IH]; intros n Hall Hn; [lia|].
      simpl in Hall. apply andb_true_iff in Hall as [H1 H2].
      destruct (Z.eq_dec c n) as [->|Hne]; [exact H1|]. apply (IH (n + 1)); [exact H2|lia]. }
    apply (Hgen 128%nat 0 charset_has_all). lia. }
  unfold charset_has in Hh. rewrite Hc in Hh. cbn [negb orb] in Hh.
  apply existsb_exists in Hh as (i & Hi & Heq). apply in_seq in Hi.
  exists i. split; [lia|]. by apply Z.eqb_eq.
Qed.

Lemma alphanumeric_sample_index (i : nat) rest :
  (i < 62)%nat ->
  alphanumeric_sample (Z.of_nat i * 2 ^ 26 :: rest) = Some (nth i GEN_ASCII_STR_CHARSET 0, rest).
Proof.
  intros Hi. cbn [alphanumeric_sample].
  assert (Hv : Z.shiftr (Z.of_nat i * 2 ^ 26) (32 - 6) = Z.of_nat i).
  { rewrite Z.shiftr_div_pow2 by lia. change (32 - 6) with 26. apply Z.div_mul. lia. }
  rewrite Hv. unfold RANGE. rewrite (proj2 (Z.ltb_lt _ _)) by lia. rewrite Nat2Z.id. reflexivity.
Qed.

(** The generator can draw every string of [A-Za-z0-9] of the requested
    length: for each one some sequence of [u32] values (each accepted on
    its first draw) makes [sample_string] return it, so ids range over all
    62^6 strings of that form. *)
Theorem sample_string_reaches_all (id : bytes) :
  Forall (fun c => is_ascii_alphanumeric c = true) id ->
  exists rng, Forall (fun u => 0 <= u < 2 ^ 32) rng /\ length rng = length id
    /\ sample_string (length id) rng = Some (id, []).
Proof.
  induction 1 as [|c id Hc _ IH]; [exists []; auto|].
  destruct IH as (rng & Hu & Hl & Hs).
  destruct (charset_complete c Hc) as (i & Hi & Hnth).
  exists (Z.of_nat i * 2 ^ 26 :: rng). split; [constructor; [lia|exact Hu]|].
  split; [simpl; lia|]. cbn [length sample_string].
  rewrite (alphanumeric_sample_index i rng Hi), Hnth, Hs. reflexivity.
Qed.

Lemma sample_string_reaches_all_witness :
  Forall (fun c => is_ascii_alphanumeric c = true) (lit "Zz09aA")
  /\ exists rng, Forall (fun u => 0 <= u < 2 ^ 32) rng /\ length rng = length (lit "Zz09aA")
    /\ sample_string (length (lit "Zz09aA")) rng = Some (lit "Zz09aA", []).
Proof.
  assert (Ha : Forall (fun c => is_ascii_alphanumeric c = true) (lit "Zz09aA")).
  { vm_compute. repeat constructor. }
  split; [exact Ha|]. exact (sample_string_reaches_all _ Ha).
Defined.

(** ** Accepted ids do not share files *)

(** Two different ids that [retrieve_paste] accepts (non-ASCII ones
    included) are read from two different files, whatever the directory. *)
Theorem accepted_ids_distinct_files `{UnicodeTables} (paste_dir id id' : bytes) :
  is_string id -> is_string id' -> id_rejected id = false -> id_rejected id' = false ->
  paste_file paste_dir id = paste_file paste_dir id' -> id = id'.
Proof.
  intros Hs Hs' Hv Hv' Heq. unfold paste_file in Heq.
  apply path_join_pure_inj in Heq; [|exact (accepted_id_head id Hs Hv)|exact (accepted_id_head id' Hs' Hv')].
  by apply app_inv_tail in Heq.
Qed.

Lemma accepted_ids_distinct_files_witness :
  is_string aaaa_e_acute /\ id_rejected aaaa_e_acute = false
  /\ paste_file (lit "pastes") aaaa_e_acute = paste_file (lit "pastes") aaaa_e_acute
  /\ aaaa_e_acute = aaaa_e_acute.
Proof.
  assert (Hs : is_string aaaa_e_acute).
  { split; [vm_compute; repeat constructor; discriminate | vm_compute; eauto]. }
  assert (Hv : id_rejected aaaa_e_acute = false) by (vm_compute; reflexivity).
  split; [exact Hs|]. split; [exact Hv|]. split; [reflexivity|].
  exact (accepted_ids_distinct_files (lit "pastes") _ _ Hs Hs Hv Hv eq_refl).
Defined.
